(** * rd_api: a shallow embedding of [src/rdapi.py]

    The Python module is a thin client of the Real-Debrid REST API.  The
    class [RD] holds a token, a base URL, a header dictionary and the table of
    vendor error codes; four request methods build an HTTP request, hand it
    to the [requests] library and pass the answer through [RD.handler]; nine
    nested classes group one-line endpoint methods.

    The embedding keeps the shape of the code.  Python values that come out
    of a JSON decoder are the inductive [pyval]; exceptions are values of
    [exn] with the class hierarchy of Python and of [requests]; a method is a
    computation in the monad [M], which threads the mutable world (the client
    object, the records handed to [logging], the requests handed to
    [requests]) and may raise.  What lies outside the repository (the
    network, the file system, the bundled [error_codes.json]) is a variable of
    the section [Client]. *)

From stdpp Require Import base option strings list gmap pretty.
From Stdlib Require Import ZArith Lia.

Local Open Scope Z_scope.

(** ** Python values *)

(** The values [json.load] and [Response.json] can produce, and the values
    the endpoint methods pass as keyword arguments.  A JSON object decodes to
    a [dict] whose keys are always [str]; a float is kept by its [repr]. *)
#[warnings="-register-all"] Inductive pyval : Type :=
  | PNone
  | PBool (b : bool)
  | PInt (n : Z)
  | PFloat (repr : string)
  | PStr (s : string)
  | PList (l : list pyval)
  | PDict (d : gmap string pyval).

(** Arguments the endpoint methods pass through [str(...)] to build a path:
    identifiers are strings or integers. *)
Inductive pyid : Type :=
  | IdStr (s : string)
  | IdInt (n : Z).

(** [str(x)] on an identifier. *)
Definition py_str (x : pyid) : string :=
  match x with
  | IdStr s => s
  | IdInt n => pretty n
  end.

(** A keyword argument with a default: [None] is an argument the caller left
    out, [Some v] one the caller wrote. *)
Definition arg_or (dflt : pyval) (a : option pyval) : pyval :=
  match a with
  | Some v => v
  | None => dflt
  end.

(** ** Exceptions *)

Inductive exn_class : Type :=
  | Exception
  | TypeError
  | ValueError
  | LookupError
  | KeyError
  | AttributeError
  | OSError
  | FileNotFoundError
  | RequestException
  | HTTPError
  | ConnectionError
  | Timeout
  | InvalidJSONError
  | JSONDecodeError.

#[global] Instance exn_class_eq_dec : EqDecision exn_class.
Proof. solve_decision. Defined.

(** The direct base classes, as Python and [requests.exceptions] declare
    them. *)
Definition bases (c : exn_class) : list exn_class :=
  match c with
  | Exception => []
  | TypeError | ValueError | LookupError | AttributeError | OSError => [Exception]
  | KeyError => [LookupError]
  | FileNotFoundError => [OSError]
  | RequestException => [OSError]
  | HTTPError | ConnectionError | Timeout | InvalidJSONError => [RequestException]
  | JSONDecodeError => [InvalidJSONError; ValueError]
  end.

(** [issubclass c d], by walking the bases; the hierarchy is four levels
    deep, the fuel is its depth. *)
Fixpoint issubclass_upto (fuel : nat) (c d : exn_class) : bool :=
  bool_decide (c = d) ||
  match fuel with
  | O => false
  | S fuel' => existsb (fun b => issubclass_upto fuel' b d) (bases c)
  end.

Definition issubclass (c d : exn_class) : bool := issubclass_upto 4 c d.

Record exn : Type := mkExn { exn_type : exn_class; exn_args : string }.

Definition isinstance (e : exn) (c : exn_class) : bool :=
  issubclass (exn_type e) c.

Inductive result (A : Type) : Type :=
  | Ok (a : A)
  | Raise (e : exn).
Arguments Ok {A} a.
Arguments Raise {A} e.

(** ** Requests and responses *)

Inductive http_method : Type := GET | POST | PUT | DELETE.

Inductive payload : Type :=
  | NoData
  | FormData (fields : list (string * pyval))
  | FileData (content : list Byte.byte).

(** What the client hands to [requests.get/post/put/delete]. *)
Record Request : Type := mkRequest {
  req_method : http_method;
  req_url : string;
  req_headers : gmap string string;
  req_params : list (string * pyval);
  req_data : payload
}.

(** What [Response.json()] does with the body: it decodes to a value, or the
    decoder rejects it with a message. *)
Inductive decoded : Type :=
  | Decodes (v : pyval)
  | Undecodable (msg : string).

Record Response : Type := mkResponse {
  status_code : Z;
  reason : string;
  url : string;
  body : decoded
}.

(** ** The client object and the world *)

Record RD : Type := mkRD {
  rd_apitoken : string;
  base_url : string;
  header : gmap string string;
  error_codes : pyval
}.

Inductive levelname : Type := INFO | ERROR.

(** A log message before formatting: the pieces of the f-string. *)
Inductive fragment : Type :=
  | Lit (s : string)
  | Val (v : pyval)
  | Exc (e : exn).

Record LogRecord : Type := mkLog { level : levelname; msg : list fragment }.

Record World : Type := mkWorld {
  self_ : RD;
  records : list LogRecord;
  sent : list Request
}.

(** ** The monad of methods *)

Definition M (A : Type) : Type := World -> result A * World.

#[global] Instance M_ret : MRet M := fun A a w => (Ok a, w).
#[global] Instance M_bind : MBind M := fun A B f m w =>
  match m w with
  | (Ok a, w') => f a w'
  | (Raise e, w') => (Raise e, w')
  end.

Definition raise {A} (e : exn) : M A := fun w => (Raise e, w).

Definition lift {A} (r : result A) : M A := fun w => (r, w).

Definition read_self : M RD := fun w => (Ok (self_ w), w).

Definition emit (l : levelname) (m : list fragment) : M unit := fun w =>
  (Ok tt, mkWorld (self_ w) (records w ++ [mkLog l m]) (sent w)).

Definition logging_error (m : list fragment) : M unit := emit ERROR m.
Definition logging_info (m : list fragment) : M unit := emit INFO m.

(** [try: body except c1 as e: h1 e except c2 as e: h2 e ...]: the first
    clause whose class the exception is an instance of handles it; with no
    such clause the exception goes on. *)
Fixpoint dispatch {A} (e : exn) (clauses : list (exn_class * (exn -> M A))) : M A :=
  match clauses with
  | [] => raise e
  | (c, h) :: rest => if isinstance e c then h e else dispatch e rest
  end.

Definition try_except {A} (body : M A) (clauses : list (exn_class * (exn -> M A))) : M A :=
  fun w =>
    match body w with
    | (Ok a, w') => (Ok a, w')
    | (Raise e, w') => dispatch e clauses w'
    end.

(** ** Operations of Python on decoded values *)

Fixpoint is_substring (p s : string) : bool :=
  String.prefix p s ||
  match s with
  | EmptyString => false
  | String _ s' => is_substring p s'
  end.

Definition is_str (k : string) (v : pyval) : bool :=
  match v with
  | PStr s => bool_decide (s = k)
  | _ => false
  end.

(** [k in v] for a string [k]: a key of a dict, an element of a list, a
    substring of a string; the other values are not containers. *)
Definition py_contains (k : string) (v : pyval) : result bool :=
  match v with
  | PDict d => Ok (bool_decide (is_Some (d !! k)))
  | PList l => Ok (existsb (is_str k) l)
  | PStr s => Ok (is_substring k s)
  | PNone => Raise (mkExn TypeError "argument of type 'NoneType' is not iterable")
  | PBool _ => Raise (mkExn TypeError "argument of type 'bool' is not iterable")
  | PInt _ => Raise (mkExn TypeError "argument of type 'int' is not iterable")
  | PFloat _ => Raise (mkExn TypeError "argument of type 'float' is not iterable")
  end.

(** [v[k]] for a string [k]. *)
Definition py_getitem (v : pyval) (k : string) : result pyval :=
  match v with
  | PDict d =>
      match d !! k with
      | Some x => Ok x
      | None => Raise (mkExn KeyError k)
      end
  | PList _ => Raise (mkExn TypeError "list indices must be integers or slices, not str")
  | PStr _ => Raise (mkExn TypeError "string indices must be integers, not 'str'")
  | PNone => Raise (mkExn TypeError "'NoneType' object is not subscriptable")
  | PBool _ => Raise (mkExn TypeError "'bool' object is not subscriptable")
  | PInt _ => Raise (mkExn TypeError "'int' object is not subscriptable")
  | PFloat _ => Raise (mkExn TypeError "'float' object is not subscriptable")
  end.

(** [table.get(key, dflt)].  The keys of a decoded JSON object are strings, so
    only a string key can be found; a number, a boolean or [None] hashes and
    compares unequal to every string and gets the default; a list or a dict
    is unhashable.  A table that is no dict has no [get]. *)
Definition py_get (table key dflt : pyval) : result pyval :=
  match table with
  | PDict d =>
      match key with
      | PStr s => Ok (default dflt (d !! s))
      | PNone | PBool _ | PInt _ | PFloat _ => Ok dflt
      | PList _ => Raise (mkExn TypeError "unhashable type: 'list'")
      | PDict _ => Raise (mkExn TypeError "unhashable type: 'dict'")
      end
  | PList _ => Raise (mkExn AttributeError "'list' object has no attribute 'get'")
  | PStr _ => Raise (mkExn AttributeError "'str' object has no attribute 'get'")
  | PNone => Raise (mkExn AttributeError "'NoneType' object has no attribute 'get'")
  | PBool _ => Raise (mkExn AttributeError "'bool' object has no attribute 'get'")
  | PInt _ => Raise (mkExn AttributeError "'int' object has no attribute 'get'")
  | PFloat _ => Raise (mkExn AttributeError "'float' object has no attribute 'get'")
  end.

(** ** The [requests] library, as far as the client uses it *)

(** [Response.raise_for_status()]: the message is set for a 4xx or 5xx
    status, and [HTTPError] is raised when it is set. *)
Definition http_error_msg (r : Response) : option string :=
  if bool_decide (400 ≤ status_code r < 500) then
    Some (pretty (status_code r) +:+ " Client Error: " +:+ reason r
            +:+ " for url: " +:+ url r)
  else if bool_decide (500 ≤ status_code r < 600) then
    Some (pretty (status_code r) +:+ " Server Error: " +:+ reason r
            +:+ " for url: " +:+ url r)
  else None.

Definition raise_for_status (r : Response) : M unit :=
  match http_error_msg r with
  | Some m => raise (mkExn HTTPError m)
  | None => mret tt
  end.

(** [Response.json()]. *)
Definition json (r : Response) : M pyval :=
  match body r with
  | Decodes v => mret v
  | Undecodable m => raise (mkExn JSONDecodeError m)
  end.

(** ** The class [RD] *)

Section Client.

(** What the network answers to a request: a response, or the exception
    [requests] raises when no response arrives. *)
Variable network : Request -> result Response.

(** [open(filepath, 'rb')] and reading the file. *)
Variable open_rb : string -> result (list Byte.byte).

(** The decoded content of the bundled [error_codes.json]. *)
Variable error_codes_json : pyval.

Definition send (q : Request) : M Response := fun w =>
  (network q, mkWorld (self_ w) (records w) (sent w ++ [q])).

Definition requests_get (u : string) (headers : gmap string string)
    (params : list (string * pyval)) : M Response :=
  send (mkRequest GET u headers params NoData).

Definition requests_post (u : string) (headers : gmap string string)
    (data : list (string * pyval)) : M Response :=
  send (mkRequest POST u headers [] (FormData data)).

Definition requests_put (u : string) (headers : gmap string string)
    (data : list Byte.byte) (params : list (string * pyval)) : M Response :=
  send (mkRequest PUT u headers params (FileData data)).

Definition requests_delete (u : string) (headers : gmap string string) : M Response :=
  send (mkRequest DELETE u headers [] NoData).

(** [RD.__init__]: [api_token] is [None] when the caller gave none;
    [environ] is the process environment [os.getenv] reads. *)
Definition RD_init (api_token : option string) (environ : gmap string string)
    : result RD :=
  let api_token :=
    match api_token with
    | None => environ !! "RD_APITOKEN"
    | Some _ => api_token
    end in
  match api_token with
  | None => Raise (mkExn ValueError "API Token is empty, please provide a valid token.")
  | Some t =>
      if bool_decide (t = "") then
        Raise (mkExn ValueError "API Token is empty, please provide a valid token.")
      else
        Ok (mkRD t "https://api.real-debrid.com/rest/1.0"
              {[ "Authorization" := "Bearer " +:+ t ]} error_codes_json)
  end.

(** [RD.handler]. *)
Definition RD_handler (request : Response) : M Response :=
  try_except (raise_for_status request)
    [ (HTTPError, fun errh => logging_error [Exc errh]);
      (ConnectionError, fun errc => logging_error [Exc errc]);
      (Timeout, fun errt => logging_error [Exc errt]);
      (RequestException, fun err => logging_error [Exc err]) ];;
  try_except
    (j ← json request;
     found ← lift (py_contains "error_code" j);
     if found : bool then
       j' ← json request;
       code ← lift (py_getitem j' "error_code");
       self ← read_self;
       error_message ← lift (py_get (error_codes self) code (PStr "Unknown Error"));
       logging_error [Lit "Error "; Val code; Lit ": "; Val error_message]
     else mret tt)
    [ (Exception, fun e =>
         logging_error [Lit "An error occurred while handling the response: "; Exc e]) ];;
  mret request.

(** [RD.get], [RD.post], [RD.put], [RD.delete]. *)
Definition RD_get (path : string) (options : list (string * pyval)) : M Response :=
  self ← read_self;
  request ← requests_get (base_url self +:+ path) (header self) options;
  RD_handler request.

Definition RD_post (path : string) (data : list (string * pyval)) : M Response :=
  self ← read_self;
  request ← requests_post (base_url self +:+ path) (header self) data;
  RD_handler request.

Definition RD_put (path filepath : string) (params : list (string * pyval)) : M Response :=
  self ← read_self;
  file ← lift (open_rb filepath);
  request ← requests_put (base_url self +:+ path) (header self) file params;
  RD_handler request.

Definition RD_delete (path : string) : M Response :=
  self ← read_self;
  request ← requests_delete (base_url self +:+ path) (header self);
  RD_handler request.

(** [RD.check_token]. *)
Definition RD_check_token (token : option string) : M unit :=
  match token with
  | None => logging_error [Lit "API Token is empty, please add a token."]
  | Some t =>
      if bool_decide (t = "") then
        logging_error [Lit "API Token is empty, please add a token."]
      else logging_info [Lit "API Token is valid"]
  end.

(** ** The resource groups

    Each nested class keeps a reference [self.rd] to the one client; in the
    embedding it is the client of the world.  An optional parameter is an
    [option pyval], resolved against the default of the signature. *)

(** [class System] *)
Definition System_disable_token : M Response := RD_get "/disable_access_token" [].
Definition System_time : M Response := RD_get "/time" [].
Definition System_iso_time : M Response := RD_get "/time/iso" [].

(** [class User] *)
Definition User_get : M pyval :=
  r ← RD_get "/user" []; json r.

(** [class Unrestrict] *)
Definition Unrestrict_check (link : pyval) (password : option pyval) : M pyval :=
  r ← RD_post "/unrestrict/check"
        [("link", link); ("password", arg_or PNone password)];
  json r.

Definition Unrestrict_link (link : pyval) (password remote : option pyval) : M pyval :=
  r ← RD_post "/unrestrict/link"
        [("link", link); ("password", arg_or PNone password);
         ("remote", arg_or PNone remote)];
  json r.

Definition Unrestrict_folder (link : pyval) : M Response :=
  RD_post "/unrestrict/folder" [("link", link)].

Definition Unrestrict_container_file (filepath : string) : M Response :=
  RD_put "/unrestrict/containerFile" filepath [].

Definition Unrestrict_container_link (link : pyval) : M Response :=
  RD_post "/unrestrict/containerLink" [("link", link)].

(** [class Traffic] *)
Definition Traffic_get : M pyval :=
  r ← RD_get "/traffic" []; json r.

Definition Traffic_details (start end_ : option pyval) : M pyval :=
  r ← RD_get "/traffic/details"
        [("start", arg_or PNone start); ("end", arg_or PNone end_)];
  json r.

(** [class Streaming] *)
Definition Streaming_transcode (id : pyid) : M pyval :=
  r ← RD_get ("/streaming/transcode/" +:+ py_str id) []; json r.

Definition Streaming_media_info (id : pyid) : M pyval :=
  r ← RD_get ("/streaming/mediaInfos/" +:+ py_str id) []; json r.

(** [class Downloads] *)
Definition Downloads_get (offset page limit : option pyval) : M Response :=
  RD_get "/downloads"
    [("offset", arg_or PNone offset); ("page", arg_or PNone page);
     ("limit", arg_or PNone limit)].

Definition Downloads_delete (id : pyid) : M Response :=
  RD_delete ("/downloads/delete/" +:+ py_str id).

(** [class Torrents] *)
Definition Torrents_get (offset page limit filter : option pyval) : M Response :=
  RD_get "/torrents"
    [("offset", arg_or PNone offset); ("page", arg_or PNone page);
     ("limit", arg_or PNone limit); ("filter", arg_or PNone filter)].

Definition Torrents_info (id : pyid) : M Response :=
  RD_get ("/torrents/info/" +:+ py_str id) [].

Definition Torrents_instant_availability (hash : pyid) : M Response :=
  RD_get ("/torrents/instantAvailability/" +:+ py_str hash) [].

Definition Torrents_active_count : M Response := RD_get "/torrents/activeCount" [].

Definition Torrents_available_hosts : M Response := RD_get "/torrents/availableHosts" [].

Definition Torrents_add_file (filepath : string) (host : option pyval) : M Response :=
  RD_put "/torrents/addTorrent" filepath [("host", arg_or PNone host)].

Definition Torrents_add_magnet (magnet : pyid) (host : option pyval) : M Response :=
  let magnet_link := "magnet:?xt=urn:btih:" +:+ py_str magnet in
  RD_post "/torrents/addMagnet"
    [("magnet", PStr magnet_link); ("host", arg_or PNone host)].

Definition Torrents_select_files (id files : pyid) : M Response :=
  RD_post ("/torrents/selectFiles/" +:+ py_str id) [("files", PStr (py_str files))].

Definition Torrents_delete (id : pyid) : M Response :=
  RD_delete ("/torrents/delete/" +:+ py_str id).

(** [class Hosts] *)
Definition Hosts_get : M Response := RD_get "/hosts" [].
Definition Hosts_status : M Response := RD_get "/hosts/status" [].
Definition Hosts_regex : M Response := RD_get "/hosts/regex" [].
Definition Hosts_regex_folder : M Response := RD_get "/hosts/regexFolder" [].
Definition Hosts_domains : M Response := RD_get "/hosts/domains" [].

(** [class Settings] *)
Definition Settings_get : M Response := RD_get "/settings" [].

Definition Settings_update (setting_name setting_value : pyval) : M Response :=
  RD_post "/settings/update"
    [("setting_name", setting_name); ("setting_value", setting_value)].

Definition Settings_convert_points : M Response := RD_post "/settings/convertPoints" [].
Definition Settings_change_password : M Response := RD_post "/settings/changePassword" [].

Definition Settings_avatar_file (filepath : string) : M Response :=
  RD_put "/settings/avatarFile" filepath [].

Definition Settings_avatar_delete : M Response := RD_delete "/settings/avatarDelete".

(** ** The surface of the client

    The methods by name, to speak of any of them at once: the four request
    methods, the endpoint methods that return [.json()] of the response,
    and the endpoint methods that return the response. *)

Inductive request_op : Type :=
  | OpGet (path : string) (options : list (string * pyval))
  | OpPost (path : string) (data : list (string * pyval))
  | OpPut (path filepath : string) (params : list (string * pyval))
  | OpDelete (path : string).

Definition perform (op : request_op) : M Response :=
  match op with
  | OpGet path options => RD_get path options
  | OpPost path data => RD_post path data
  | OpPut path filepath params => RD_put path filepath params
  | OpDelete path => RD_delete path
  end.

Inductive json_endpoint : Type :=
  | user_get
  | unrestrict_check (link : pyval) (password : option pyval)
  | unrestrict_link (link : pyval) (password remote : option pyval)
  | traffic_get
  | traffic_details (start end_ : option pyval)
  | streaming_transcode (id : pyid)
  | streaming_media_info (id : pyid).

Definition call_json (ep : json_endpoint) : M pyval :=
  match ep with
  | user_get => User_get
  | unrestrict_check link password => Unrestrict_check link password
  | unrestrict_link link password remote => Unrestrict_link link password remote
  | traffic_get => Traffic_get
  | traffic_details start end_ => Traffic_details start end_
  | streaming_transcode id => Streaming_transcode id
  | streaming_media_info id => Streaming_media_info id
  end.

Inductive raw_endpoint : Type :=
  | system_disable_token
  | system_time
  | system_iso_time
  | unrestrict_folder (link : pyval)
  | unrestrict_container_file (filepath : string)
  | unrestrict_container_link (link : pyval)
  | downloads_get (offset page limit : option pyval)
  | downloads_delete (id : pyid)
  | torrents_get (offset page limit filter : option pyval)
  | torrents_info (id : pyid)
  | torrents_instant_availability (hash : pyid)
  | torrents_active_count
  | torrents_available_hosts
  | torrents_add_file (filepath : string) (host : option pyval)
  | torrents_add_magnet (magnet : pyid) (host : option pyval)
  | torrents_select_files (id files : pyid)
  | torrents_delete (id : pyid)
  | hosts_get
  | hosts_status
  | hosts_regex
  | hosts_regex_folder
  | hosts_domains
  | settings_get
  | settings_update (setting_name setting_value : pyval)
  | settings_convert_points
  | settings_change_password
  | settings_avatar_file (filepath : string)
  | settings_avatar_delete.

Definition call_raw (ep : raw_endpoint) : M Response :=
  match ep with
  | system_disable_token => System_disable_token
  | system_time => System_time
  | system_iso_time => System_iso_time
  | unrestrict_folder link => Unrestrict_folder link
  | unrestrict_container_file filepath => Unrestrict_container_file filepath
  | unrestrict_container_link link => Unrestrict_container_link link
  | downloads_get offset page limit => Downloads_get offset page limit
  | downloads_delete id => Downloads_delete id
  | torrents_get offset page limit filter => Torrents_get offset page limit filter
  | torrents_info id => Torrents_info id
  | torrents_instant_availability hash => Torrents_instant_availability hash
  | torrents_active_count => Torrents_active_count
  | torrents_available_hosts => Torrents_available_hosts
  | torrents_add_file filepath host => Torrents_add_file filepath host
  | torrents_add_magnet magnet host => Torrents_add_magnet magnet host
  | torrents_select_files id files => Torrents_select_files id files
  | torrents_delete id => Torrents_delete id
  | hosts_get => Hosts_get
  | hosts_status => Hosts_status
  | hosts_regex => Hosts_regex
  | hosts_regex_folder => Hosts_regex_folder
  | hosts_domains => Hosts_domains
  | settings_get => Settings_get
  | settings_update setting_name setting_value =>
      Settings_update setting_name setting_value
  | settings_convert_points => Settings_convert_points
  | settings_change_password => Settings_change_password
  | settings_avatar_file filepath => Settings_avatar_file filepath
  | settings_avatar_delete => Settings_avatar_delete
  end.

End Client.

(** ** The vocabulary of the statements *)

(** The state of the world after the handler: the client and the requests
    are those of before, the log has grown by [recs]. *)
Definition logged (w : World) (recs : list LogRecord) : World :=
  mkWorld (self_ w) (records w ++ recs) (sent w).

(** A computation that only writes to the log. *)
Definition logs_only {A} (m : M A) : Prop :=
  ∀ w, ∃ recs, snd (m w) = logged w recs.

(** The records of the first block of the handler: one for a 4xx or 5xx
    status, none otherwise. *)
Definition status_records (r : Response) : list LogRecord :=
  match http_error_msg r with
  | Some m => [mkLog ERROR [Exc (mkExn HTTPError m)]]
  | None => []
  end.

(** The record the second block writes when the inspection of the body
    raises [e]. *)
Definition handling_failure (e : exn) : LogRecord :=
  mkLog ERROR [Lit "An error occurred while handling the response: "; Exc e].

(** The record the second block writes for a vendor code and the message
    found for it. *)
Definition code_report (code message : pyval) : LogRecord :=
  mkLog ERROR [Lit "Error "; Val code; Lit ": "; Val message].

(** The world once a request has been handed to [requests]. *)
Definition issued (w : World) (q : Request) : World :=
  mkWorld (self_ w) (records w) (sent w ++ [q]).

(** The request each method builds from the client of the world. *)
Definition request_of (fs : string -> result (list Byte.byte)) (self : RD)
    (op : request_op) : result Request :=
  match op with
  | OpGet path options =>
      Ok (mkRequest GET (base_url self +:+ path) (header self) options NoData)
  | OpPost path data =>
      Ok (mkRequest POST (base_url self +:+ path) (header self) [] (FormData data))
  | OpPut path filepath params =>
      match fs filepath with
      | Ok file =>
          Ok (mkRequest PUT (base_url self +:+ path) (header self) params (FileData file))
      | Raise e => Raise e
      end
  | OpDelete path =>
      Ok (mkRequest DELETE (base_url self +:+ path) (header self) [] NoData)
  end.

(** A computation that leaves the client object as it found it. *)
Definition stable {A} (m : M A) : Prop := ∀ w, self_ (snd (m w)) = self_ w.

(** The vendor's answer to an expired token, and a table with the entry for
    code 8 as a JSON file holds it. *)
Definition bad_token_response : Response :=
  mkResponse 401 "Unauthorized" "https://api.real-debrid.com/rest/1.0/user"
    (Decodes (PDict (<["error_code" := PInt 8]> {[ "error" := PStr "bad_token" ]}))).

(** The table, with the key as [json.load] gives it: the string ["8"]. *)
Definition bad_token_table : pyval :=
  PDict {[ "8" := PStr "Bad token (expired, invalid)" ]}.

(** A client with this table, before any request. *)
Definition bad_token_world : World :=
  mkWorld (mkRD "T0K3N" "https://api.real-debrid.com/rest/1.0"
             {[ "Authorization" := "Bearer T0K3N" ]} bad_token_table) [] [].

(** A network that answers no request: [requests] raises [e] (a
    [ConnectionError], a [Timeout]). *)
Definition unreachable (e : exn) : Request -> result Response := fun _ => Raise e.

(** The exception [RD.__init__] raises for a missing or empty token. *)
Definition token_error : exn :=
  mkExn ValueError "API Token is empty, please provide a valid token.".

(** Any call a user can make on the client: a request method, the handler,
    [check_token], an endpoint method. *)
Inductive call : Type :=
  | CallRequest (op : request_op)
  | CallHandler (r : Response)
  | CallCheckToken (token : option string)
  | CallJson (ep : json_endpoint)
  | CallRaw (ep : raw_endpoint).

(** The world a call leaves, whether it returns or raises. *)
Definition after (net : Request -> result Response)
    (fs : string -> result (list Byte.byte)) (c : call) (w : World) : World :=
  match c with
  | CallRequest op => snd (perform net fs op w)
  | CallHandler r => snd (RD_handler r w)
  | CallCheckToken token => snd (RD_check_token token w)
  | CallJson ep => snd (call_json net ep w)
  | CallRaw ep => snd (call_raw net fs ep w)
  end.

(** A session: calls made one after the other, each against the network as
    it behaves at that moment. *)
Definition session (fs : string -> result (list Byte.byte))
    (cs : list ((Request -> result Response) * call)) (w : World) : World :=
  fold_left (fun w nc => after (fst nc) fs (snd nc) w) cs w.

(** What every request of a client looks like: the header of the client and
    nothing else, a URL under its base URL, and the data where the HTTP
    method of the request takes it. *)
Definition from_client (self : RD) (q : Request) : Prop :=
  req_headers q = header self
  ∧ String.prefix (base_url self) (req_url q) = true
  ∧ match req_method q with
    | GET => req_data q = NoData
    | POST => req_params q = [] ∧ ∃ fields, req_data q = FormData fields
    | PUT => ∃ content, req_data q = FileData content
    | DELETE => req_params q = [] ∧ req_data q = NoData
    end.

(** * Properties *)

(** ** The exception hierarchy *)

Lemma issubclass_refl (c : exn_class) : issubclass c c = true.
Proof. by destruct c. Qed.

(** Every class of the model descends from [Exception], so the clause
    [except Exception] takes whatever the guarded block raises. *)
Lemma issubclass_Exception (c : exn_class) : issubclass c Exception = true.
Proof. by destruct c. Qed.

Lemma isinstance_Exception (e : exn) : isinstance e Exception = true.
Proof. apply issubclass_Exception. Qed.

(** ** Running a computation *)

Ltac run := unfold mbind, M_bind, mret, M_ret, raise, lift, read_self,
  logging_error, logging_info, emit, try_except in *; simpl in *.

Lemma bind_ok {A B} (m : M A) (f : A -> M B) (w w' : World) (a : A) :
  m w = (Ok a, w') -> (m ≫= f) w = f a w'.
Proof. intros H. run. by rewrite H. Qed.

(** ** The two guarded blocks of [RD.handler] *)

(** What [raise_for_status] does to the world: nothing. *)
Lemma raise_for_status_world (r : Response) (w : World) :
  snd (raise_for_status r w) = w.
Proof. unfold raise_for_status. by destruct (http_error_msg r). Qed.

Lemma raise_for_status_class (r : Response) (w w' : World) (e : exn) :
  raise_for_status r w = (Raise e, w') -> exn_type e = HTTPError.
Proof.
  unfold raise_for_status. destruct (http_error_msg r); run; intros Heq;
    by inversion Heq.
Qed.

Lemma logged_nil (w : World) : logged w [] = w.
Proof. destruct w. unfold logged. simpl. by rewrite app_nil_r. Qed.

Lemma logged_logged (w : World) (l1 l2 : list LogRecord) :
  logged (logged w l1) l2 = logged w (l1 ++ l2).
Proof. unfold logged. simpl. by rewrite app_assoc. Qed.

Lemma logs_only_ret {A} (a : A) : logs_only (mret a).
Proof. intros w. exists []. by rewrite logged_nil. Qed.

Lemma logs_only_raise {A} (e : exn) : logs_only (@raise A e).
Proof. intros w. exists []. by rewrite logged_nil. Qed.

Lemma logs_only_lift {A} (r : result A) : logs_only (lift r).
Proof. intros w. exists []. by rewrite logged_nil. Qed.

Lemma logs_only_read_self : logs_only read_self.
Proof. intros w. exists []. by rewrite logged_nil. Qed.

Lemma logs_only_emit (l : levelname) (m : list fragment) : logs_only (emit l m).
Proof. intros w. by exists [mkLog l m]. Qed.

Lemma logs_only_bind {A B} (m : M A) (f : A -> M B) :
  logs_only m -> (∀ a, logs_only (f a)) -> logs_only (m ≫= f).
Proof.
  intros Hm Hf w. destruct (Hm w) as [l1 H1]. run.
  destruct (m w) as [[a|e] w1]; simpl in H1; subst w1.
  - destruct (Hf a (logged w l1)) as [l2 H2]. exists (l1 ++ l2).
    by rewrite H2, logged_logged.
  - by exists l1.
Qed.

Lemma logs_only_dispatch {A} (e : exn) (clauses : list (exn_class * (exn -> M A))) :
  Forall (fun ch => ∀ x, logs_only (snd ch x)) clauses -> logs_only (dispatch e clauses).
Proof.
  induction 1 as [|[c h] rest Hh _ IH]; simpl.
  - apply logs_only_raise.
  - destruct (isinstance e c); [apply Hh | apply IH].
Qed.

Lemma logs_only_try_except {A} (body : M A) (clauses : list (exn_class * (exn -> M A))) :
  logs_only body -> Forall (fun ch => ∀ x, logs_only (snd ch x)) clauses ->
  logs_only (try_except body clauses).
Proof.
  intros Hb Hc w. destruct (Hb w) as [l1 H1]. unfold try_except.
  destruct (body w) as [[a|e] w1]; simpl in H1; subst w1.
  - by exists l1.
  - destruct (logs_only_dispatch e clauses Hc (logged w l1)) as [l2 H2].
    exists (l1 ++ l2). by rewrite H2, logged_logged.
Qed.

Lemma logs_only_json (r : Response) : logs_only (json r).
Proof.
  unfold json. destruct (body r); [apply logs_only_ret | apply logs_only_raise].
Qed.

Lemma logs_only_raise_for_status (r : Response) : logs_only (raise_for_status r).
Proof. intros w. exists []. by rewrite raise_for_status_world, logged_nil. Qed.

Create HintDb effects.
#[local] Hint Resolve logs_only_ret logs_only_raise logs_only_lift logs_only_read_self
  logs_only_emit logs_only_json logs_only_raise_for_status : effects.

Ltac logs_only_tac :=
  repeat first
    [ apply logs_only_bind; [|intros ?]
    | apply logs_only_try_except
    | apply Forall_cons; split; [intros ?|]
    | apply Forall_nil
    | match goal with |- logs_only (if ?b then _ else _) => destruct b end
    | unfold logging_error, logging_info; solve [eauto with effects] ].

(** A block under [except Exception], with a clause that only logs, comes to
    its end whatever the block raises. *)
Lemma guarded_block_returns (blk : M unit) (h : exn -> list fragment) (w : World) :
  logs_only blk ->
  ∃ recs, try_except blk [(Exception, fun e => logging_error (h e))] w
          = (Ok tt, logged w recs).
Proof.
  intros Hb. destruct (Hb w) as [l1 H1]. unfold try_except.
  destruct (blk w) as [[[]|e] w1]; simpl in *; subst w1.
  - by exists l1.
  - rewrite isinstance_Exception. exists (l1 ++ [mkLog ERROR (h e)]).
    run. unfold logged. simpl. by rewrite app_assoc.
Qed.

(** The first block of the handler: [raise_for_status] raises [HTTPError]
    only, and the first clause takes it. *)
Lemma status_block_returns (r : Response) (w : World) :
  try_except (raise_for_status r)
    [ (HTTPError, fun errh => logging_error [Exc errh]);
      (ConnectionError, fun errc => logging_error [Exc errc]);
      (Timeout, fun errt => logging_error [Exc errt]);
      (RequestException, fun err => logging_error [Exc err]) ] w
  = (Ok tt, logged w (status_records r)).
Proof.
  unfold raise_for_status, status_records.
  destruct (http_error_msg r); run; [done|]. by rewrite logged_nil.
Qed.

(** [RD.handler] returns its argument and leaves the client and the
    requests as they were. *)
Lemma handler_spec (r : Response) (w : World) :
  ∃ recs, RD_handler r w = (Ok r, logged w recs).
Proof.
  unfold RD_handler.
  pose proof (status_block_returns r w) as H1. set (l1 := status_records r) in *.
  rewrite (bind_ok _ _ _ _ _ H1).
  match goal with
  | |- context [try_except ?blk [(Exception, fun e => logging_error (@?h e))]] =>
      destruct (guarded_block_returns blk h (logged w l1)) as [l2 H2]
  end.
  { logs_only_tac. }
  rewrite (bind_ok _ _ _ _ _ H2).
  exists (l1 ++ l2). by rewrite logged_logged.
Qed.

Ltac handler_steps :=
  unfold RD_handler;
  rewrite (bind_ok _ _ _ _ _ (status_block_returns _ _));
  unfold json; run.

(** A body the decoder rejects. *)
Lemma handler_json_raises (r : Response) (w : World) (e : exn) :
  fst (json r w) = Raise e ->
  RD_handler r w = (Ok r, logged w (status_records r ++ [handling_failure e])).
Proof.
  intros Hj. unfold json in Hj. handler_steps.
  destruct (body r) as [v|m]; simpl in *; [done|].
  injection Hj as <-. unfold logged. simpl. by rewrite app_assoc.
Qed.

(** A body that decodes to a value [in] cannot search: [None], a boolean, a
    number. *)
Lemma handler_contains_raises (r : Response) (w : World) (v : pyval) (e : exn) :
  body r = Decodes v -> py_contains "error_code" v = Raise e ->
  RD_handler r w = (Ok r, logged w (status_records r ++ [handling_failure e])).
Proof.
  intros Hb Hc. handler_steps. rewrite Hb. simpl. rewrite Hc. simpl.
  rewrite isinstance_Exception. unfold logged. simpl. by rewrite app_assoc.
Qed.

(** A body without the field: nothing more is logged. *)
Lemma handler_no_code (r : Response) (w : World) (v : pyval) :
  body r = Decodes v -> py_contains "error_code" v = Ok false ->
  RD_handler r w = (Ok r, logged w (status_records r)).
Proof.
  intros Hb Hc. handler_steps. by rewrite Hb; simpl; rewrite Hc.
Qed.

(** A body with the field: the outcome of [error_codes.get] decides. *)
Lemma handler_code_found (r : Response) (w : World) (v code message : pyval) :
  body r = Decodes v -> py_contains "error_code" v = Ok true ->
  py_getitem v "error_code" = Ok code ->
  py_get (error_codes (self_ w)) code (PStr "Unknown Error") = Ok message ->
  RD_handler r w = (Ok r, logged w (status_records r ++ [code_report code message])).
Proof.
  intros Hb Hc Hg Hm. handler_steps. rewrite Hb. simpl. rewrite Hc. simpl.
  rewrite Hg. simpl. rewrite Hm. simpl. unfold logged. simpl.
  by rewrite app_assoc.
Qed.

Lemma handler_code_unhashable (r : Response) (w : World) (v code : pyval) (e : exn) :
  body r = Decodes v -> py_contains "error_code" v = Ok true ->
  py_getitem v "error_code" = Ok code ->
  py_get (error_codes (self_ w)) code (PStr "Unknown Error") = Raise e ->
  RD_handler r w = (Ok r, logged w (status_records r ++ [handling_failure e])).
Proof.
  intros Hb Hc Hg Hm. handler_steps. rewrite Hb. simpl. rewrite Hc. simpl.
  rewrite Hg. simpl. rewrite Hm. simpl. rewrite isinstance_Exception.
  unfold logged. simpl. by rewrite app_assoc.
Qed.

(** A list or a string that holds ["error_code"]: [in] says yes, the
    subscript raises, the clause takes it. *)
Lemma handler_getitem_raises (r : Response) (w : World) (v : pyval) (e : exn) :
  body r = Decodes v -> py_contains "error_code" v = Ok true ->
  py_getitem v "error_code" = Raise e ->
  RD_handler r w = (Ok r, logged w (status_records r ++ [handling_failure e])).
Proof.
  intros Hb Hc Hg. handler_steps. rewrite Hb. simpl. rewrite Hc. simpl.
  rewrite Hg. simpl. rewrite isinstance_Exception.
  unfold logged. simpl. by rewrite app_assoc.
Qed.

(** ** The four request methods *)

(** A request method opens the file if it has one, hands one request to
    [requests], and gives the answer to the handler; what [requests] raises
    instead of an answer is not inside any [try]. *)
Lemma perform_unfold net fs (op : request_op) (w : World) :
  perform net fs op w =
    match request_of fs (self_ w) op with
    | Raise e => (Raise e, w)
    | Ok q =>
        match net q with
        | Ok r => RD_handler r (issued w q)
        | Raise e => (Raise e, issued w q)
        end
    end.
Proof.
  destruct op; simpl; unfold RD_get, RD_post, RD_put, RD_delete, requests_get,
    requests_post, requests_put, requests_delete, send, issued; run.
  3: destruct (fs filepath); simpl; [|done].
  all: by destruct (net _).
Qed.

(** Every request method appends to the requests and to the log, and
    touches nothing else. *)
Lemma perform_world net fs (op : request_op) (w : World) :
  ∃ recs new,
    snd (perform net fs op w) = mkWorld (self_ w) (records w ++ recs) (sent w ++ new)
    ∧ match request_of fs (self_ w) op with
      | Ok q => new = [q]
      | Raise _ => new = []
      end.
Proof.
  rewrite perform_unfold. destruct (request_of fs (self_ w) op) as [q|e].
  - destruct (net q) as [r|e].
    + destruct (handler_spec r (issued w q)) as [recs ->].
      by exists recs, [q].
    + exists [], [q]. unfold issued. simpl. by rewrite app_nil_r.
  - exists [], []. destruct w. simpl. by rewrite !app_nil_r.
Qed.

Lemma request_of_headers fs (self : RD) (op : request_op) (q : Request) :
  request_of fs self op = Ok q -> req_headers q = header self.
Proof.
  destruct op; simpl; try (intros [= <-]; done).
  destruct (fs filepath); [intros [= <-]; done | done].
Qed.

(** ** The endpoint methods are pass-throughs *)

Lemma call_raw_perform net fs (ep : raw_endpoint) :
  ∃ op, call_raw net fs ep = perform net fs op.
Proof.
  destruct ep; simpl;
    first [ by eexists (OpGet _ _) | by eexists (OpPost _ _)
          | by eexists (OpPut _ _ _) | by eexists (OpDelete _) ].
Qed.

Lemma call_json_perform net (ep : json_endpoint) :
  ∃ op, (∀ fs self, ∃ q, request_of fs self op = Ok q)
        ∧ ∀ fs, call_json net ep = (perform net fs op ≫= json).
Proof.
  destruct ep; simpl;
    first [ eexists (OpGet _ _); split; [by eexists | done]
          | eexists (OpPost _ _); split; [by eexists | done] ].
Qed.

(** ** The client object is never written *)

Lemma stable_handler (r : Response) : stable (RD_handler r).
Proof. intros w. by destruct (handler_spec r w) as [recs ->]. Qed.

Lemma stable_perform net fs (op : request_op) : stable (perform net fs op).
Proof. intros w. by destruct (perform_world net fs op w) as (recs & new & -> & _). Qed.

Lemma stable_json (r : Response) : stable (json r).
Proof. intros w. unfold json. by destruct (body r). Qed.

Lemma stable_bind {A B} (m : M A) (f : A -> M B) :
  stable m -> (∀ a, stable (f a)) -> stable (m ≫= f).
Proof.
  intros Hm Hf w. specialize (Hm w). run.
  destruct (m w) as [[a|e] w1]; simpl in *; [|done].
  by rewrite Hf.
Qed.

Lemma stable_check_token (token : option string) : stable (RD_check_token token).
Proof. intros w. unfold RD_check_token. destruct token; [case_bool_decide|]; done. Qed.

Lemma stable_call_raw net fs (ep : raw_endpoint) : stable (call_raw net fs ep).
Proof. destruct (call_raw_perform net fs ep) as [op ->]. apply stable_perform. Qed.

Lemma stable_call_json net (ep : json_endpoint) : stable (call_json net ep).
Proof.
  destruct (call_json_perform net ep) as (op & _ & Hc).
  rewrite (Hc (fun _ => Ok [])).
  apply stable_bind; [apply stable_perform | apply stable_json].
Qed.

(** * The claims *)

(** ** C1: vendor error codes and the table *)

(** What holds of the lookup.  A code that is a string is looked up among the
    keys of the table: the entry when there is one, ["Unknown Error"] when
    there is none. *)
Lemma string_code_resolved (tok base : string) (hdr : gmap string string)
    (table rest : gmap string pyval) (recs : list LogRecord) (snt : list Request)
    (st : Z) (rs u s : string) :
  let r := mkResponse st rs u (Decodes (PDict (<["error_code" := PStr s]> rest))) in
  let w := mkWorld (mkRD tok base hdr (PDict table)) recs snt in
  RD_handler r w =
    (Ok r, logged w (status_records r ++
                     [code_report (PStr s) (default (PStr "Unknown Error") (table !! s))])).
Proof.
  intros r w. apply (handler_code_found r w _ _ _ eq_refl); simpl.
  - by rewrite lookup_insert_eq, bool_decide_eq_true_2.
  - by rewrite lookup_insert_eq.
  - done.
Qed.

(** A code that is an integer, as the vendor sends it, is never a key of a
    table decoded from JSON, whatever the table holds. *)
Lemma integer_code_unknown (tok base : string) (hdr : gmap string string)
    (table rest : gmap string pyval) (recs : list LogRecord) (snt : list Request)
    (st : Z) (rs u : string) (n : Z) :
  let r := mkResponse st rs u (Decodes (PDict (<["error_code" := PInt n]> rest))) in
  let w := mkWorld (mkRD tok base hdr (PDict table)) recs snt in
  RD_handler r w =
    (Ok r, logged w (status_records r ++
                     [code_report (PInt n) (PStr "Unknown Error")])).
Proof.
  intros r w. apply (handler_code_found r w _ _ _ eq_refl); simpl.
  - by rewrite lookup_insert_eq, bool_decide_eq_true_2.
  - by rewrite lookup_insert_eq.
  - done.
Qed.

(** A code that is a list or an object cannot be hashed: the lookup raises,
    the clause takes it, and no message for the code is reported. *)
Lemma list_code_not_reported (tok base : string) (hdr : gmap string string)
    (table rest : gmap string pyval) (recs : list LogRecord) (snt : list Request)
    (st : Z) (rs u : string) (l : list pyval) :
  let r := mkResponse st rs u (Decodes (PDict (<["error_code" := PList l]> rest))) in
  let w := mkWorld (mkRD tok base hdr (PDict table)) recs snt in
  RD_handler r w =
    (Ok r, logged w (status_records r ++
                     [handling_failure (mkExn TypeError "unhashable type: 'list'")])).
Proof.
  intros r w. apply (handler_code_unhashable r w _ (PList l) _ eq_refl); simpl.
  - by rewrite lookup_insert_eq, bool_decide_eq_true_2.
  - by rewrite lookup_insert_eq.
  - done.
Qed.

(** C1.  The claim: the handler reports the table's message for the code of
    the body, and ["Unknown Error"] only for a code the table lacks.  The
    code: for the body [{"error": "bad_token", "error_code": 8}] and a table
    that holds ["8": "Bad token (expired, invalid)"], the handler looks up
    the integer 8 among the string keys and reports
    [Error 8: Unknown Error]. *)
Theorem known_integer_code_reported_unknown :
  RD_handler bad_token_response bad_token_world =
    (Ok bad_token_response,
     logged bad_token_world
       [ mkLog ERROR [Exc (mkExn HTTPError
           "401 Client Error: Unauthorized for url: https://api.real-debrid.com/rest/1.0/user")];
         mkLog ERROR [Lit "Error "; Val (PInt 8); Lit ": "; Val (PStr "Unknown Error")] ]).
Proof.
  rewrite (handler_code_found bad_token_response bad_token_world _
             (PInt 8) (PStr "Unknown Error") eq_refl).
  - reflexivity.
  - simpl. by rewrite lookup_insert_eq, bool_decide_eq_true_2.
  - simpl. by rewrite lookup_insert_eq.
  - reflexivity.
Qed.

(** ** C2: transport failures *)

(** What holds.  A response with a 4xx or 5xx status is reported and
    returned: the first record the handler writes is the [HTTPError]. *)
Lemma http_error_reported_and_returned net fs (op : request_op) (w : World)
    (q : Request) (r : Response) (m : string) :
  request_of fs (self_ w) op = Ok q -> net q = Ok r -> http_error_msg r = Some m ->
  ∃ recs, perform net fs op w =
            (Ok r, logged (issued w q) (mkLog ERROR [Exc (mkExn HTTPError m)] :: recs)).
Proof.
  intros Hq Hr Hm. rewrite perform_unfold, Hq, Hr.
  unfold RD_handler. rewrite (bind_ok _ _ _ _ _ (status_block_returns _ _)).
  unfold status_records. rewrite Hm.
  match goal with
  | |- context [try_except ?blk [(Exception, fun e => logging_error (@?h e))]] =>
      destruct (guarded_block_returns blk h
                  (logged (issued w q) [mkLog ERROR [Exc (mkExn HTTPError m)]]))
        as [l2 H2]
  end.
  { logs_only_tac. }
  rewrite (bind_ok _ _ _ _ _ H2). exists l2. by rewrite logged_logged.
Qed.

(** C2.  The claim: no connection error or timeout leaves the request layer;
    it is reported and a response is returned.  The code: the call to
    [requests] stands before the [try] of the handler, so what it raises
    leaves [RD.get], [RD.post], [RD.put] and [RD.delete] as it is, with
    nothing logged and no response; the clauses for [ConnectionError] and
    [Timeout] in the handler guard [raise_for_status], which raises neither. *)
Theorem connection_failure_escapes :
  ∀ (e : exn) (path filepath : string) (kw : list (string * pyval))
    (content : list Byte.byte) (w : World),
    let self := self_ w in
    let fs := fun _ : string => Ok content in
    RD_get (unreachable e) path kw w =
      (Raise e, issued w (mkRequest GET (base_url self +:+ path) (header self) kw NoData))
    ∧ RD_post (unreachable e) path kw w =
      (Raise e, issued w (mkRequest POST (base_url self +:+ path) (header self) []
                            (FormData kw)))
    ∧ RD_put (unreachable e) fs path filepath kw w =
      (Raise e, issued w (mkRequest PUT (base_url self +:+ path) (header self) kw
                            (FileData content)))
    ∧ RD_delete (unreachable e) path w =
      (Raise e, issued w (mkRequest DELETE (base_url self +:+ path) (header self) []
                            NoData)).
Proof.
  intros e path filepath kw content w self fs. split; [|split; [|split]].
  - exact (perform_unfold (unreachable e) fs (OpGet path kw) w).
  - exact (perform_unfold (unreachable e) fs (OpPost path kw) w).
  - exact (perform_unfold (unreachable e) fs (OpPut path filepath kw) w).
  - exact (perform_unfold (unreachable e) fs (OpDelete path) w).
Qed.

(** ** C3: construction *)

(** C3.  Without a token and without [RD_APITOKEN] in the environment, and
    with the empty string as token, [RD.__init__] raises [ValueError]; with a
    non-empty token (a string with a first character) it returns the client
    that stores this token. *)
Theorem init_token :
  ∀ (table : pyval) (environ : gmap string string) (a : Ascii.ascii) (s : string),
    RD_init table None (delete "RD_APITOKEN" environ) = Raise token_error
    ∧ RD_init table (Some "") environ = Raise token_error
    ∧ RD_init table (Some (String a s)) environ =
        Ok (mkRD (String a s) "https://api.real-debrid.com/rest/1.0"
              {[ "Authorization" := "Bearer " +:+ String a s ]} table).
Proof.
  intros table environ a s. unfold RD_init. split; [|split].
  - by rewrite lookup_delete_eq.
  - reflexivity.
  - reflexivity.
Qed.

(** The token of the environment is used when the caller gives none. *)
Lemma init_token_from_environment (table : pyval) (environ : gmap string string)
    (t : string) :
  environ !! "RD_APITOKEN" = Some t -> t ≠ "" ->
  ∃ c, RD_init table None environ = Ok c ∧ rd_apitoken c = t.
Proof.
  intros He Ht. unfold RD_init. rewrite He, bool_decide_eq_false_2 by done.
  by eexists.
Qed.

(** Every client [RD.__init__] returns has a non-empty token and the header
    made from it. *)
Lemma init_invariant (table : pyval) (api_token : option string)
    (environ : gmap string string) (c : RD) :
  RD_init table api_token environ = Ok c ->
  rd_apitoken c ≠ ""
  ∧ header c = {[ "Authorization" := "Bearer " +:+ rd_apitoken c ]}
  ∧ base_url c = "https://api.real-debrid.com/rest/1.0"
  ∧ error_codes c = table.
Proof.
  unfold RD_init.
  destruct api_token as [t|]; [|destruct (environ !! "RD_APITOKEN") as [t|]];
    try done; case_bool_decide; try done; by intros [= <-].
Qed.

(** ** C4: the Authorization header *)

(** C4.  For a client [RD.__init__] returned, whatever [RD.get], [RD.post],
    [RD.put] or [RD.delete] hands to [requests] carries the header
    [Authorization: Bearer <token>], with the token of the client. *)
Theorem authorization_on_every_request :
  ∀ (table : pyval) (api_token : option string) (environ : gmap string string)
    (c : RD) net fs (op : request_op) (recs : list LogRecord) (snt : list Request),
    RD_init table api_token environ = Ok c ->
    ∃ new,
      sent (snd (perform net fs op (mkWorld c recs snt))) = snt ++ new
      ∧ Forall (fun q => req_headers q !! "Authorization"
                         = Some ("Bearer " +:+ rd_apitoken c)) new.
Proof.
  intros table api_token environ c net fs op recs snt Hc.
  destruct (init_invariant _ _ _ _ Hc) as (_ & Hh & _).
  destruct (perform_world net fs op (mkWorld c recs snt)) as (l & new & -> & Hn).
  exists new. split; [done|]. simpl in Hn.
  destruct (request_of fs c op) as [q|e] eqn:Hq; subst new; [|constructor].
  repeat constructor.
  by rewrite (request_of_headers _ _ _ _ Hq), Hh, lookup_singleton_eq.
Qed.

Lemma authorization_on_every_request_witness :
  let c := mkRD "T0K3N" "https://api.real-debrid.com/rest/1.0"
             {[ "Authorization" := "Bearer T0K3N" ]} PNone in
  RD_init PNone (Some "T0K3N") ∅ = Ok c
  ∧ ∃ new,
      sent (snd (perform (fun _ => Ok (mkResponse 200 "OK" "" (Decodes (PInt 0))))
                   (fun _ => Ok []) (OpGet "/time" []) (mkWorld c [] [])))
        = [] ++ new
      ∧ Forall (fun q => req_headers q !! "Authorization" = Some "Bearer T0K3N") new.
Proof.
  intros c. split; [reflexivity|].
  apply (authorization_on_every_request PNone (Some "T0K3N") ∅ c). reflexivity.
Defined.

(** ** C5: bodies that do not decode *)

Lemma undecodable_handler (r : Response) (w : World) (m : string) :
  body r = Undecodable m ->
  RD_handler r w =
    (Ok r, logged w (status_records r ++
                     [handling_failure (mkExn JSONDecodeError m)])).
Proof.
  intros Hb. apply handler_json_raises. unfold json. by rewrite Hb.
Qed.


(** C5.  When [request.json()] raises (the body is empty or is not JSON) the
    handler catches the exception, writes the record of the failure after
    the records of the status check, and returns the response it was
    given. *)
Theorem undecodable_body_caught :
  ∀ (r : Response) (w : World) (m : string),
    body r = Undecodable m ->
    RD_handler r w =
      (Ok r, logged w (status_records r ++
                       [handling_failure (mkExn JSONDecodeError m)])).
Proof.
  intros r w m Hb. by apply undecodable_handler.
Qed.

Lemma undecodable_body_caught_witness :
  let r := mkResponse 200 "OK" "https://api.real-debrid.com/rest/1.0/time"
             (Undecodable "Expecting value: line 1 column 1 (char 0)") in
  body r = Undecodable "Expecting value: line 1 column 1 (char 0)"
  ∧ RD_handler r bad_token_world =
      (Ok r, logged bad_token_world
               (status_records r ++
                [handling_failure
                   (mkExn JSONDecodeError "Expecting value: line 1 column 1 (char 0)")])).
Proof.
  intros r. split; [reflexivity|].
  apply (undecodable_body_caught r bad_token_world). reflexivity.
Defined.

(** ** C6: magnet links *)

(** C6.  [torrents.add_magnet(s)] hands one POST to [requests], to
    [/torrents/addMagnet], whose form field [magnet] is
    ['magnet:?xt=urn:btih:' + s]; for [s = "ABCDEF"] the field is
    ['magnet:?xt=urn:btih:ABCDEF']. *)
Theorem add_magnet_request :
  ∀ net (host : option pyval) (w : World),
    (∀ s : string,
      sent (snd (Torrents_add_magnet net (IdStr s) host w)) =
        sent w ++
        [mkRequest POST (base_url (self_ w) +:+ "/torrents/addMagnet") (header (self_ w)) []
           (FormData [("magnet", PStr ("magnet:?xt=urn:btih:" +:+ s));
                      ("host", arg_or PNone host)])])
    ∧ sent (snd (Torrents_add_magnet net (IdStr "ABCDEF") host w)) =
        sent w ++
        [mkRequest POST (base_url (self_ w) +:+ "/torrents/addMagnet") (header (self_ w)) []
           (FormData [("magnet", PStr "magnet:?xt=urn:btih:ABCDEF");
                      ("host", arg_or PNone host)])].
Proof.
  intros net host w.
  assert (∀ s data, sent (snd (RD_post net s data w)) =
            sent w ++ [mkRequest POST (base_url (self_ w) +:+ s) (header (self_ w)) []
                         (FormData data)]) as Hpost.
  { intros s data.
    destruct (perform_world net (fun _ => Ok []) (OpPost s data) w)
      as (l & new & Hw & ->).
    simpl in Hw. by rewrite Hw. }
  split; [intros s|]; apply Hpost.
Qed.

(** ** C7: defaults of the listing methods *)

(** C7.  [downloads.get()] is [downloads.get(offset=None, page=None,
    limit=None)] and [torrents.get()] is [torrents.get(offset=None,
    page=None, limit=None, filter=None)]: against the same network and from
    the same world they send the same request and give the same result. *)
Theorem listing_defaults :
  ∀ net (w : World),
    Downloads_get net None None None w =
      Downloads_get net (Some PNone) (Some PNone) (Some PNone) w
    ∧ Torrents_get net None None None None w =
      Torrents_get net (Some PNone) (Some PNone) (Some PNone) (Some PNone) w.
Proof. intros net w. split; reflexivity. Qed.

(** ** C8: the configuration is immutable *)

(** C8.  No method writes the client object: after [RD.get], [RD.post],
    [RD.put], [RD.delete], [RD.handler], [RD.check_token] and every endpoint
    method, the token, the base URL, the header and the table of error codes
    are what they were before. *)
Theorem configuration_unchanged :
  ∀ net fs (w : World),
    (∀ op, self_ (snd (perform net fs op w)) = self_ w)
    ∧ (∀ r, self_ (snd (RD_handler r w)) = self_ w)
    ∧ (∀ token, self_ (snd (RD_check_token token w)) = self_ w)
    ∧ (∀ ep, self_ (snd (call_json net ep w)) = self_ w)
    ∧ (∀ ep, self_ (snd (call_raw net fs ep w)) = self_ w).
Proof.
  intros net fs w. repeat apply conj; intros x.
  - apply stable_perform.
  - apply stable_handler.
  - apply stable_check_token.
  - apply stable_call_json.
  - apply stable_call_raw.
Qed.

(** ** C9: the handler returns its argument *)

(** C9.  [RD.handler] returns the response it was given, whatever its status
    and its body, and never raises. *)
Theorem handler_identity :
  ∀ (r : Response) (w : World), fst (RD_handler r w) = Ok r.
Proof. intros r w. by destruct (handler_spec r w) as [recs ->]. Qed.

(** ** C10: endpoint methods that decode the body *)

(** C10.  When the network answers with a response whose body does not
    decode, each of [user.get], [unrestrict.check], [unrestrict.link],
    [traffic.get], [traffic.details], [streaming.transcode] and
    [streaming.media_info] raises the decoder's exception to its caller,
    after the handler has caught and logged the same exception; an endpoint
    method that returns the response returns it, and raises only what
    opening the file to upload raises. *)
Theorem decode_error_reaches_caller :
  ∀ net fs (r : Response) (m : string) (w : World),
    (∀ q, net q = Ok r) -> body r = Undecodable m ->
    (∀ ep, ∃ w',
        call_json net ep w = (Raise (mkExn JSONDecodeError m), w')
        ∧ handling_failure (mkExn JSONDecodeError m) ∈ records w')
    ∧ (∀ ep,
        match fst (call_raw net fs ep w) with
        | Ok r' => r' = r
        | Raise e => ∃ filepath, fs filepath = Raise e
        end).
Proof.
  intros net fs r m w Hnet Hb. split; intros ep.
  - destruct (call_json_perform net ep) as (op & Hq & Hc).
    rewrite (Hc fs). destruct (Hq fs (self_ w)) as [q Hq'].
    assert (perform net fs op w =
              (Ok r, logged (issued w q)
                       (status_records r ++ [handling_failure (mkExn JSONDecodeError m)])))
      as Hp.
    { rewrite perform_unfold, Hq', Hnet. by apply undecodable_handler. }
    rewrite (bind_ok _ _ _ _ _ Hp). unfold json. rewrite Hb.
    eexists. split; [reflexivity|]. simpl.
    rewrite !elem_of_app, list_elem_of_singleton. auto.
  - destruct (call_raw_perform net fs ep) as [op ->].
    rewrite perform_unfold.
    destruct (request_of fs (self_ w) op) as [q|e] eqn:Hq.
    + rewrite Hnet. by destruct (handler_spec r (issued w q)) as [recs ->].
    + simpl. destruct op; simpl in Hq; try done.
      exists filepath. destruct (fs filepath); [done|]. by injection Hq as ->.
Qed.

Lemma decode_error_reaches_caller_witness :
  let r := mkResponse 200 "OK" "https://api.real-debrid.com/rest/1.0/user"
             (Undecodable "Expecting value: line 1 column 1 (char 0)") in
  let net := fun _ : Request => Ok r in
  let fs := fun _ : string => Ok ([] : list Byte.byte) in
  let e := mkExn JSONDecodeError "Expecting value: line 1 column 1 (char 0)" in
  (∀ q, net q = Ok r)
  ∧ body r = Undecodable "Expecting value: line 1 column 1 (char 0)"
  ∧ (∀ ep, ∃ w',
        call_json net ep bad_token_world = (Raise e, w')
        ∧ handling_failure e ∈ records w')
  ∧ (∀ ep,
        match fst (call_raw net fs ep bad_token_world) with
        | Ok r' => r' = r
        | Raise e => ∃ filepath, fs filepath = Raise e
        end).
Proof.
  intros r net fs e. split; [reflexivity|]. split; [reflexivity|].
  apply (decode_error_reaches_caller net fs r _ bad_token_world); reflexivity.
Defined.

(** * Further properties of the code *)

(** ** The handler, case by case *)

Lemma status_records_length (r : Response) : (length (status_records r) ≤ 1)%nat.
Proof. unfold status_records. destruct (http_error_msg r); simpl; lia. Qed.

Lemma status_records_level (r : Response) :
  Forall (fun l => level l = ERROR) (status_records r).
Proof. unfold status_records. destruct (http_error_msg r); repeat constructor. Qed.

Lemma http_error_msg_None (r : Response) :
  status_code r < 400 ∨ 600 ≤ status_code r -> http_error_msg r = None.
Proof.
  intros H. unfold http_error_msg.
  rewrite !bool_decide_eq_false_2 by lia. done.
Qed.

Lemma http_error_msg_Some (r : Response) :
  400 ≤ status_code r < 600 -> ∃ m, http_error_msg r = Some m.
Proof.
  intros H. unfold http_error_msg.
  destruct (decide (status_code r < 500)).
  - rewrite bool_decide_eq_true_2 by lia. by eexists.
  - rewrite bool_decide_eq_false_2 by lia.
    rewrite bool_decide_eq_true_2 by lia. by eexists.
Qed.

(** What the second block adds to the log depends on the body and on the
    table only; it is at most one record. *)
Lemma handler_tail (r : Response) (table : pyval) :
  ∃ tail,
    (length tail ≤ 1)%nat
    ∧ Forall (fun l => level l = ERROR) tail
    ∧ ∀ w, error_codes (self_ w) = table ->
           RD_handler r w = (Ok r, logged w (status_records r ++ tail)).
Proof.
  destruct (body r) as [v|m] eqn:Hb.
  - destruct (py_contains "error_code" v) as [[|]|e] eqn:Hc.
    + destruct (py_getitem v "error_code") as [code|e] eqn:Hg.
      * destruct (py_get table code (PStr "Unknown Error")) as [message|e] eqn:Hm.
        -- exists [code_report code message]. split; [simpl; lia|].
           split; [by repeat constructor|]. intros w Hw.
           apply (handler_code_found r w v code message); by rewrite ?Hw.
        -- exists [handling_failure e]. split; [simpl; lia|].
           split; [by repeat constructor|]. intros w Hw.
           apply (handler_code_unhashable r w v code e); by rewrite ?Hw.
      * exists [handling_failure e]. split; [simpl; lia|].
        split; [by repeat constructor|]. intros w _.
        by apply (handler_getitem_raises r w v e).
    + exists []. split; [simpl; lia|]. split; [constructor|]. intros w _.
      rewrite app_nil_r. by apply (handler_no_code r w v).
    + exists [handling_failure e]. split; [simpl; lia|].
      split; [by repeat constructor|]. intros w _.
      by apply (handler_contains_raises r w v e).
  - exists [handling_failure (mkExn JSONDecodeError m)]. split; [simpl; lia|].
    split; [by repeat constructor|]. intros w _. by apply undecodable_handler.
Qed.

(** X3.  [RD.handler] writes at most two records for a response, one for the
    status and one for the body, and every one of them at level ERROR. *)
Theorem handler_log_bounded :
  ∀ (r : Response) (w : World),
    ∃ recs,
      RD_handler r w = (Ok r, logged w recs)
      ∧ (length recs ≤ 2)%nat
      ∧ Forall (fun l => level l = ERROR) recs.
Proof.
  intros r w.
  destruct (handler_tail r (error_codes (self_ w))) as (tail & Hl & Hf & Hh).
  exists (status_records r ++ tail). split; [by apply Hh|]. split.
  - rewrite length_app. pose proof (status_records_length r). lia.
  - apply Forall_app. split; [apply status_records_level | done].
Qed.

(** X4.  What [RD.handler] logs for a response depends on the response and
    on the client only, not on what was logged or sent before: from two
    histories of the same client it adds the same records. *)
Theorem handler_history_independent :
  ∀ (r : Response) (c : RD) (recs1 recs2 : list LogRecord) (snt1 snt2 : list Request),
    ∃ recs,
      RD_handler r (mkWorld c recs1 snt1) = (Ok r, mkWorld c (recs1 ++ recs) snt1)
      ∧ RD_handler r (mkWorld c recs2 snt2) = (Ok r, mkWorld c (recs2 ++ recs) snt2).
Proof.
  intros r c recs1 recs2 snt1 snt2.
  destruct (handler_tail r (error_codes c)) as (tail & _ & _ & Hh).
  exists (status_records r ++ tail). split; by rewrite Hh.
Qed.

(** ** Bodies that are no JSON object *)

Lemma prefix_spec (p s : string) :
  String.prefix p s = true ↔ ∃ b, s = p +:+ b.
Proof.
  revert s. induction p as [|c p IH]; intros s.
  - split; [intros _; by exists s|]. by destruct s.
  - destruct s as [|d s]; simpl.
    + split; [done|]. by intros [b Hb].
    + destruct (Ascii.ascii_dec c d) as [->|Hne].
      * rewrite IH. split; intros [b Hb]; exists b; [by rewrite Hb|].
        by injection Hb.
      * split; [done|]. intros [b Hb]. by injection Hb.
Qed.

Lemma is_substring_prefix (p s : string) :
  String.prefix p s = true -> is_substring p s = true.
Proof. intros H. destruct s; cbn [is_substring]; by rewrite H. Qed.

(** The model of [p in s] on strings finds exactly the occurrences. *)
Lemma is_substring_spec (p s : string) :
  is_substring p s = true ↔ ∃ a b, s = a +:+ p +:+ b.
Proof.
  split.
  - induction s as [|c s IH]; cbn [is_substring]; rewrite orb_true_iff, prefix_spec.
    + intros [[b Hb]|]; [|done]. by exists "", b.
    + intros [[b Hb]|Hs]; [by exists "", b|].
      destruct (IH Hs) as (a & b & ->). by exists (String c a), b.
  - intros (a & b & ->). induction a as [|c a IH].
    + apply is_substring_prefix, prefix_spec. by exists b.
    + change (String c a +:+ p +:+ b) with (String c (a +:+ p +:+ b)).
      cbn [is_substring]. rewrite orb_true_iff. by right.
Qed.

Lemma existsb_is_str (k : string) (l : list pyval) :
  existsb (is_str k) l = true ↔ PStr k ∈ l.
Proof.
  rewrite existsb_exists. split.
  - intros (v & Hin & Hv). apply list_elem_of_In in Hin.
    destruct v; simpl in Hv; try done. by apply bool_decide_eq_true in Hv as ->.
  - intros Hin. exists (PStr k). split; [by apply list_elem_of_In|].
    simpl. by apply bool_decide_eq_true.
Qed.

(** X11.  A body that decodes to [null], a boolean or a number cannot be
    searched with [in]: the handler logs the [TypeError] as a handling
    failure, after the records of the status, and returns the response. *)
Theorem scalar_body_logged :
  ∀ (st : Z) (rs u : string) (w : World) (v : pyval),
    v = PNone ∨ (∃ b, v = PBool b) ∨ (∃ n, v = PInt n) ∨ (∃ f, v = PFloat f) ->
    let r := mkResponse st rs u (Decodes v) in
    ∃ e, exn_type e = TypeError
         ∧ RD_handler r w = (Ok r, logged w (status_records r ++ [handling_failure e])).
Proof.
  intros st rs u w v Hv r.
  destruct Hv as [->|[[b ->]|[[n ->]|[f ->]]]];
    eexists; (split; [|by apply (handler_contains_raises r w _ _ eq_refl)]); done.
Qed.

Lemma scalar_body_logged_witness :
  (PInt 5 = PNone ∨ (∃ b, PInt 5 = PBool b) ∨ (∃ n, PInt 5 = PInt n)
   ∨ (∃ f, PInt 5 = PFloat f))
  ∧ let r := mkResponse 200 "OK" "" (Decodes (PInt 5)) in
    ∃ e, exn_type e = TypeError
         ∧ RD_handler r bad_token_world =
             (Ok r, logged bad_token_world (status_records r ++ [handling_failure e])).
Proof.
  split.
  - right. right. left. by exists 5.
  - apply (scalar_body_logged 200 "OK" "" bad_token_world (PInt 5)).
    right. right. left. by exists 5.
Defined.

(** X12.  A body that decodes to an array with the element ["error_code"],
    or to a string in which [error_code] occurs, passes the test [in] and
    fails at the subscript: the handler logs the [TypeError] as a handling
    failure and reports no vendor code. *)
Theorem array_or_string_body_logged :
  ∀ (r : Response) (w : World),
    (∃ l, body r = Decodes (PList l) ∧ PStr "error_code" ∈ l)
    ∨ (∃ a b, body r = Decodes (PStr (a +:+ "error_code" +:+ b))) ->
    ∃ e, exn_type e = TypeError
         ∧ RD_handler r w = (Ok r, logged w (status_records r ++ [handling_failure e])).
Proof.
  intros r w [(l & Hb & Hin)|(a & b & Hb)].
  - eexists. split; [|apply (handler_getitem_raises r w _ _ Hb); [|reflexivity]]; [done|].
    simpl. f_equal. by apply existsb_is_str.
  - eexists. split; [|apply (handler_getitem_raises r w _ _ Hb); [|reflexivity]]; [done|].
    simpl. f_equal. apply is_substring_spec. by exists a, b.
Qed.

Lemma array_or_string_body_logged_witness :
  let r := mkResponse 200 "OK" "" (Decodes (PList [PInt 1; PStr "error_code"])) in
  ((∃ l, body r = Decodes (PList l) ∧ PStr "error_code" ∈ l)
   ∨ (∃ a b, body r = Decodes (PStr (a +:+ "error_code" +:+ b))))
  ∧ ∃ e, exn_type e = TypeError
         ∧ RD_handler r bad_token_world =
             (Ok r, logged bad_token_world (status_records r ++ [handling_failure e])).
Proof.
  intros r.
  assert ((∃ l, body r = Decodes (PList l) ∧ PStr "error_code" ∈ l)
          ∨ (∃ a b, body r = Decodes (PStr (a +:+ "error_code" +:+ b)))) as H.
  { left. exists [PInt 1; PStr "error_code"]. split; [reflexivity|].
    apply list_elem_of_further, list_elem_of_here. }
  split; [exact H|]. exact (array_or_string_body_logged r bad_token_world H).
Defined.

(** ** Vendor codes sent as strings *)

(** X13.  When the body is an object whose [error_code] is a string and the
    table of the client is an object, the handler reports the entry of the
    table under that string, and ["Unknown Error"] when the table has no
    such key. *)
Theorem string_code_looked_up :
  ∀ (r : Response) (w : World) (d table : gmap string pyval) (s : string),
    body r = Decodes (PDict d) ->
    d !! "error_code" = Some (PStr s) ->
    error_codes (self_ w) = PDict table ->
    RD_handler r w =
      (Ok r, logged w (status_records r ++
                       [code_report (PStr s) (default (PStr "Unknown Error") (table !! s))])).
Proof.
  intros r w d table s Hb Hd Ht.
  apply (handler_code_found r w _ _ _ Hb); simpl.
  - by rewrite Hd, bool_decide_eq_true_2.
  - by rewrite Hd.
  - by rewrite Ht.
Qed.

Lemma string_code_looked_up_witness :
  let d : gmap string pyval := {[ "error_code" := PStr "8" ]} in
  let table : gmap string pyval := {[ "8" := PStr "Bad token (expired, invalid)" ]} in
  let r := mkResponse 401 "Unauthorized" "" (Decodes (PDict d)) in
  body r = Decodes (PDict d)
  ∧ d !! "error_code" = Some (PStr "8")
  ∧ error_codes (self_ bad_token_world) = PDict table
  ∧ RD_handler r bad_token_world =
      (Ok r, logged bad_token_world
               (status_records r ++
                [code_report (PStr "8") (default (PStr "Unknown Error") (table !! "8"))])).
Proof.
  intros d table r.
  assert (d !! "error_code" = Some (PStr "8")) as Hd by apply lookup_singleton_eq.
  split; [reflexivity|]. split; [exact Hd|]. split; [reflexivity|].
  exact (string_code_looked_up r bad_token_world d table "8" eq_refl Hd eq_refl).
Defined.

(** ** The request methods: success, HTTP errors, unreadable files *)

(** X2.  When the answer has a status outside 400..599 and its body is an
    object without [error_code], a request method sends its one request,
    returns the answer and logs nothing. *)
Theorem quiet_on_success :
  ∀ net fs (op : request_op) (w : World) (q : Request) (r : Response)
    (d : gmap string pyval),
    request_of fs (self_ w) op = Ok q ->
    net q = Ok r ->
    status_code r < 400 ∨ 600 ≤ status_code r ->
    body r = Decodes (PDict d) ->
    d !! "error_code" = None ->
    perform net fs op w = (Ok r, issued w q).
Proof.
  intros net fs op w q r d Hq Hr Hs Hb Hd.
  rewrite perform_unfold, Hq, Hr.
  rewrite (handler_no_code r (issued w q) _ Hb).
  - unfold status_records. by rewrite (http_error_msg_None r Hs), logged_nil.
  - simpl. rewrite Hd. by rewrite bool_decide_eq_false_2 by (by intros [? ?]).
Qed.

Lemma quiet_on_success_witness :
  let d : gmap string pyval := {[ "id" := PInt 42 ]} in
  let r := mkResponse 200 "OK" "" (Decodes (PDict d)) in
  let net := fun _ : Request => Ok r in
  let fs := fun _ : string => Ok ([] : list Byte.byte) in
  let q := mkRequest GET ("https://api.real-debrid.com/rest/1.0" +:+ "/user")
             {[ "Authorization" := "Bearer T0K3N" ]} [] NoData in
  request_of fs (self_ bad_token_world) (OpGet "/user" []) = Ok q
  ∧ net q = Ok r
  ∧ (status_code r < 400 ∨ 600 ≤ status_code r)
  ∧ body r = Decodes (PDict d)
  ∧ d !! "error_code" = None
  ∧ perform net fs (OpGet "/user" []) bad_token_world = (Ok r, issued bad_token_world q).
Proof.
  intros d r net fs q.
  assert (d !! "error_code" = None) as Hd by (by apply lookup_singleton_ne).
  assert (status_code r < 400 ∨ 600 ≤ status_code r) as Hs by (left; simpl; lia).
  split; [reflexivity|]. split; [reflexivity|]. split; [exact Hs|].
  split; [reflexivity|]. split; [exact Hd|].
  exact (quiet_on_success net fs (OpGet "/user" []) bad_token_world q r d
           eq_refl eq_refl Hs eq_refl Hd).
Defined.

(** X5.  When the answer has a status in 400..599, a request method still
    returns it, and the first record it logs is the [HTTPError] of
    [raise_for_status]. *)
Theorem http_error_logged_and_returned :
  ∀ net fs (op : request_op) (w : World) (q : Request) (r : Response),
    request_of fs (self_ w) op = Ok q ->
    net q = Ok r ->
    400 ≤ status_code r < 600 ->
    ∃ m recs,
      perform net fs op w =
        (Ok r, logged (issued w q) (mkLog ERROR [Exc (mkExn HTTPError m)] :: recs)).
Proof.
  intros net fs op w q r Hq Hr Hs.
  destruct (http_error_msg_Some r Hs) as [m Hm]. exists m.
  by apply http_error_reported_and_returned.
Qed.

Lemma http_error_logged_and_returned_witness :
  let net := fun _ : Request => Ok bad_token_response in
  let fs := fun _ : string => Ok ([] : list Byte.byte) in
  let q := mkRequest GET ("https://api.real-debrid.com/rest/1.0" +:+ "/user")
             {[ "Authorization" := "Bearer T0K3N" ]} [] NoData in
  request_of fs (self_ bad_token_world) (OpGet "/user" []) = Ok q
  ∧ net q = Ok bad_token_response
  ∧ 400 ≤ status_code bad_token_response < 600
  ∧ ∃ m recs,
      perform net fs (OpGet "/user" []) bad_token_world =
        (Ok bad_token_response,
         logged (issued bad_token_world q) (mkLog ERROR [Exc (mkExn HTTPError m)] :: recs)).
Proof.
  intros net fs q.
  assert (400 ≤ status_code bad_token_response < 600) as Hs by (simpl; lia).
  split; [reflexivity|]. split; [reflexivity|]. split; [exact Hs|].
  exact (http_error_logged_and_returned net fs (OpGet "/user" []) bad_token_world q
           bad_token_response eq_refl eq_refl Hs).
Defined.

(** X1.  When the file to upload cannot be opened, [RD.put] and the three
    upload endpoints raise what [open] raises: no request is sent and
    nothing is logged. *)
Theorem unreadable_file_sends_nothing :
  ∀ net fs (path filepath : string) (params : list (string * pyval))
    (host : option pyval) (e : exn) (w : World),
    fs filepath = Raise e ->
    RD_put net fs path filepath params w = (Raise e, w)
    ∧ Unrestrict_container_file net fs filepath w = (Raise e, w)
    ∧ Torrents_add_file net fs filepath host w = (Raise e, w)
    ∧ Settings_avatar_file net fs filepath w = (Raise e, w).
Proof.
  intros net fs path filepath params host e w He.
  assert (∀ p kw, RD_put net fs p filepath kw w = (Raise e, w)) as Hput.
  { intros p kw. pose proof (perform_unfold net fs (OpPut p filepath kw) w) as H.
    simpl in H. by rewrite He in H. }
  repeat apply conj; apply Hput.
Qed.

Lemma unreadable_file_sends_nothing_witness :
  let e := mkExn FileNotFoundError "[Errno 2] No such file or directory: 'a.torrent'" in
  let net := fun _ : Request => Ok bad_token_response in
  let fs := fun _ : string => @Raise (list Byte.byte) e in
  fs "a.torrent" = Raise e
  ∧ RD_put net fs "/torrents/addTorrent" "a.torrent" [] bad_token_world
      = (Raise e, bad_token_world)
  ∧ Unrestrict_container_file net fs "a.torrent" bad_token_world = (Raise e, bad_token_world)
  ∧ Torrents_add_file net fs "a.torrent" None bad_token_world = (Raise e, bad_token_world)
  ∧ Settings_avatar_file net fs "a.torrent" bad_token_world = (Raise e, bad_token_world).
Proof.
  intros e net fs. split; [reflexivity|].
  apply (unreadable_file_sends_nothing net fs "/torrents/addTorrent" "a.torrent" []
           None e bad_token_world). reflexivity.
Defined.

(** ** Endpoint methods that decode the body *)

(** X6.  When the body of the answer decodes, each of the seven endpoint
    methods that call [.json()] returns the decoded value, whatever the
    status of the answer: an error object of the vendor comes back as a
    value, not as an exception. *)
Theorem json_endpoint_returns_body :
  ∀ net (r : Response) (v : pyval) (ep : json_endpoint) (w : World),
    (∀ q, net q = Ok r) -> body r = Decodes v ->
    fst (call_json net ep w) = Ok v.
Proof.
  intros net r v ep w Hnet Hb.
  destruct (call_json_perform net ep) as (op & Hq & Hc).
  rewrite (Hc (fun _ => Ok [])).
  destruct (Hq (fun _ => Ok []) (self_ w)) as [q Hq'].
  pose proof (perform_unfold net (fun _ => Ok []) op w) as Hp.
  rewrite Hq', Hnet in Hp.
  destruct (handler_spec r (issued w q)) as [recs Hh]. rewrite Hh in Hp.
  rewrite (bind_ok _ _ _ _ _ Hp). unfold json. by rewrite Hb.
Qed.

Lemma json_endpoint_returns_body_witness :
  let net := fun _ : Request => Ok bad_token_response in
  (∀ q, net q = Ok bad_token_response)
  ∧ body bad_token_response
    = Decodes (PDict (<["error_code" := PInt 8]> {[ "error" := PStr "bad_token" ]}))
  ∧ fst (call_json net user_get bad_token_world)
    = Ok (PDict (<["error_code" := PInt 8]> {[ "error" := PStr "bad_token" ]})).
Proof.
  intros net. split; [reflexivity|]. split; [reflexivity|].
  apply (json_endpoint_returns_body net bad_token_response _ user_get bad_token_world);
    reflexivity.
Defined.

(** ** What a call does to the world *)

Lemma request_of_from_client fs (self : RD) (op : request_op) (q : Request) :
  request_of fs self op = Ok q -> from_client self q.
Proof.
  assert (∀ p, String.prefix (base_url self) (base_url self +:+ p) = true) as Hp.
  { intros p. apply prefix_spec. by exists p. }
  destruct op; simpl.
  3: destruct (fs filepath); [|done].
  all: intros [= <-]; unfold from_client; simpl; rewrite Hp; eauto.
Qed.

Lemma bind_json_world (m : M Response) (w : World) :
  snd ((m ≫= json) w) = snd (m w).
Proof.
  run. destruct (m w) as [[r|e] w']; [|done]. unfold json.
  by destruct (body r).
Qed.

Lemma check_token_spec (token : option string) (w : World) :
  ∃ l m, RD_check_token token w = (Ok tt, logged w [mkLog l m]).
Proof.
  unfold RD_check_token. destruct token as [t|]; [case_bool_decide|];
    by eexists _, _.
Qed.

(** Every call appends to the log and to the requests, at most one request,
    and a request of the client. *)
Lemma after_world net fs (c : call) (w : World) :
  ∃ recs new,
    after net fs c w = mkWorld (self_ w) (records w ++ recs) (sent w ++ new)
    ∧ (length new ≤ 1)%nat
    ∧ Forall (from_client (self_ w)) new.
Proof.
  assert (∀ op, ∃ recs new,
            snd (perform net fs op w) = mkWorld (self_ w) (records w ++ recs) (sent w ++ new)
            ∧ (length new ≤ 1)%nat ∧ Forall (from_client (self_ w)) new) as Hperform.
  { intros op. destruct (perform_world net fs op w) as (recs & new & Hw & Hn).
    exists recs, new. split; [done|].
    destruct (request_of fs (self_ w) op) as [q|e] eqn:Hq; subst new.
    - split; [simpl; lia|]. constructor; [|constructor].
      by apply (request_of_from_client fs _ op).
    - split; [simpl; lia | constructor]. }
  destruct c as [op|r|token|ep|ep]; simpl.
  - apply Hperform.
  - destruct (handler_spec r w) as [recs ->]. exists recs, [].
    unfold logged. simpl. rewrite app_nil_r. split; [done|]. split; [lia|constructor].
  - destruct (check_token_spec token w) as (l & m & ->). exists [mkLog l m], [].
    unfold logged. simpl. rewrite app_nil_r. split; [done|]. split; [lia|constructor].
  - destruct (call_json_perform net ep) as (op & _ & Hc).
    rewrite (Hc fs), bind_json_world. apply Hperform.
  - destruct (call_raw_perform net fs ep) as [op ->]. apply Hperform.
Qed.

(** X7.  Whatever is called (a request method, the handler, [check_token],
    an endpoint method) and whether it returns or raises, the log and the
    list of requests only grow, by at most one request; this request carries
    the header of the client and nothing else, goes to a URL under the base
    URL, has no body for GET and DELETE, form fields and no query for POST,
    and the file for PUT. *)
Theorem one_request_per_call :
  ∀ net fs (c : call) (w : World),
    ∃ recs new,
      after net fs c w = mkWorld (self_ w) (records w ++ recs) (sent w ++ new)
      ∧ (length new ≤ 1)%nat
      ∧ Forall (from_client (self_ w)) new.
Proof. intros net fs c w. apply after_world. Qed.

(** ** Sessions *)

Lemma session_world fs (cs : list ((Request -> result Response) * call)) (w : World) :
  ∃ recs new,
    session fs cs w = mkWorld (self_ w) (records w ++ recs) (sent w ++ new)
    ∧ (length new ≤ length cs)%nat
    ∧ Forall (from_client (self_ w)) new.
Proof.
  revert w. induction cs as [|[net c] cs IH]; intros w.
  - exists [], []. destruct w. simpl. rewrite !app_nil_r.
    split; [done|]. split; [lia|constructor].
  - unfold session in *. simpl.
    destruct (after_world net fs c w) as (r1 & n1 & Hw & Hl1 & Hf1).
    destruct (IH (after net fs c w)) as (r2 & n2 & Hs & Hl2 & Hf2).
    rewrite Hs, Hw. simpl. exists (r1 ++ r2), (n1 ++ n2).
    rewrite !app_assoc. split; [done|]. split.
    + rewrite length_app. lia.
    + apply Forall_app. split; [done|]. by rewrite Hw in Hf2.
Qed.

(** X8.  Start from a client [RD.__init__] returned and make any calls, in
    any order, against any network and file system.  The client is the one
    constructed; there are no more requests than calls; and every request
    sent carries exactly the header [Authorization: Bearer <token>] and goes
    to a URL under [https://api.real-debrid.com/rest/1.0]. *)
Theorem session_invariant :
  ∀ (table : pyval) (api_token : option string) (environ : gmap string string)
    (c : RD) fs (cs : list ((Request -> result Response) * call)),
    RD_init table api_token environ = Ok c ->
    let w := session fs cs (mkWorld c [] []) in
    self_ w = c
    ∧ (length (sent w) ≤ length cs)%nat
    ∧ Forall (fun q =>
                req_headers q = {[ "Authorization" := "Bearer " +:+ rd_apitoken c ]}
                ∧ String.prefix "https://api.real-debrid.com/rest/1.0" (req_url q) = true)
             (sent w).
Proof.
  intros table api_token environ c fs cs Hc w.
  destruct (init_invariant _ _ _ _ Hc) as (_ & Hh & Hb & _).
  destruct (session_world fs cs (mkWorld c [] [])) as (recs & new & Hw & Hl & Hf).
  subst w. rewrite Hw. simpl. split; [done|]. split; [done|].
  simpl in Hf. eapply Forall_impl; [exact Hf|].
  intros q (Hq1 & Hq2 & _). by rewrite Hq1, Hh, <- Hb.
Qed.

Lemma session_invariant_witness :
  let c := mkRD "T0K3N" "https://api.real-debrid.com/rest/1.0"
             {[ "Authorization" := "Bearer T0K3N" ]} PNone in
  let fs := fun _ : string => Ok ([] : list Byte.byte) in
  let cs := [ (unreachable (mkExn ConnectionError "refused"), CallRaw system_time);
              (fun _ => Ok bad_token_response, CallJson user_get) ] in
  RD_init PNone (Some "T0K3N") ∅ = Ok c
  ∧ let w := session fs cs (mkWorld c [] []) in
    self_ w = c
    ∧ (length (sent w) ≤ length cs)%nat
    ∧ Forall (fun q =>
                req_headers q = {[ "Authorization" := "Bearer " +:+ rd_apitoken c ]}
                ∧ String.prefix "https://api.real-debrid.com/rest/1.0" (req_url q) = true)
             (sent w).
Proof.
  intros c fs cs. split; [reflexivity|].
  apply (session_invariant PNone (Some "T0K3N") ∅ c fs cs). reflexivity.
Defined.

(** ** [check_token] and the constructor *)

(** X9.  [RD.check_token] never raises and sends nothing; it writes one
    record: at level ERROR exactly for the tokens with which the constructor
    raises when the environment has no token ([None] and the empty string),
    at level INFO for every other token. *)
Theorem check_token_agrees_with_init :
  ∀ (table : pyval) (token : option string) (w : World),
    RD_check_token token w =
      (Ok tt,
       logged w [match RD_init table token ∅ with
                 | Raise _ => mkLog ERROR [Lit "API Token is empty, please add a token."]
                 | Ok _ => mkLog INFO [Lit "API Token is valid"]
                 end]).
Proof.
  intros table token w. unfold RD_check_token, RD_init.
  destruct token as [t|]; [|by rewrite lookup_empty].
  by case_bool_decide.
Qed.

(** X10.  The constructor reads [RD_APITOKEN] only when no token is passed:
    a non-empty token of the environment then becomes the token and the
    header of the client; a token that is passed, empty or not, is used
    whatever the environment holds. *)
Theorem init_environment_rule :
  ∀ (table : pyval) (environ : gmap string string) (t : string),
    environ !! "RD_APITOKEN" = Some t -> t ≠ "" ->
    RD_init table None environ =
      Ok (mkRD t "https://api.real-debrid.com/rest/1.0"
            {[ "Authorization" := "Bearer " +:+ t ]} table)
    ∧ ∀ t', RD_init table (Some t') environ = RD_init table (Some t') ∅.
Proof.
  intros table environ t He Ht. split; [|done].
  unfold RD_init. by rewrite He, bool_decide_eq_false_2.
Qed.

Lemma init_environment_rule_witness :
  let environ : gmap string string := {[ "RD_APITOKEN" := "T0K3N" ]} in
  environ !! "RD_APITOKEN" = Some "T0K3N"
  ∧ "T0K3N" ≠ ""
  ∧ RD_init PNone None environ =
      Ok (mkRD "T0K3N" "https://api.real-debrid.com/rest/1.0"
            {[ "Authorization" := "Bearer " +:+ "T0K3N" ]} PNone)
  ∧ ∀ t', RD_init PNone (Some t') environ = RD_init PNone (Some t') ∅.
Proof.
  intros environ.
  assert (environ !! "RD_APITOKEN" = Some "T0K3N") as He by apply lookup_singleton_eq.
  assert ("T0K3N" ≠ "") as Ht by discriminate.
  split; [exact He|]. split; [exact Ht|].
  exact (init_environment_rule PNone environ "T0K3N" He Ht).
Defined.

(** ** Identifiers in paths *)

(** X14.  [downloads.delete] and [torrents.delete] put [str(id)] at the end
    of the path: two different integer identifiers never give the same
    request. *)
Theorem delete_ids_do_not_collide :
  ∀ net (n m : Z) (w : World),
    n ≠ m ->
    sent (snd (Downloads_delete net (IdInt n) w))
      ≠ sent (snd (Downloads_delete net (IdInt m) w))
    ∧ sent (snd (Torrents_delete net (IdInt n) w))
      ≠ sent (snd (Torrents_delete net (IdInt m) w)).
Proof.
  intros net n m w Hnm.
  assert (∀ p, sent (snd (RD_delete net p w)) =
            sent w ++ [mkRequest DELETE (base_url (self_ w) +:+ p) (header (self_ w)) []
                         NoData]) as Hdel.
  { intros p. destruct (perform_world net (fun _ => Ok []) (OpDelete p) w)
      as (l & new & Hw & ->). simpl in Hw. by rewrite Hw. }
  split; unfold Downloads_delete, Torrents_delete; rewrite !Hdel;
    intros H; apply app_inv_head in H; injection H as H;
    apply String.app_inj in H; apply String.app_inj in H;
    by apply (inj pretty) in H.
Qed.

Lemma delete_ids_do_not_collide_witness :
  let net := fun _ : Request => Ok bad_token_response in
  7 ≠ 8
  ∧ sent (snd (Downloads_delete net (IdInt 7) bad_token_world))
      ≠ sent (snd (Downloads_delete net (IdInt 8) bad_token_world))
  ∧ sent (snd (Torrents_delete net (IdInt 7) bad_token_world))
      ≠ sent (snd (Torrents_delete net (IdInt 8) bad_token_world)).
Proof.
  intros net. assert (7 ≠ 8) as H by lia. split; [exact H|].
  exact (delete_ids_do_not_collide net 7 8 bad_token_world H).
Defined.

(** ** Vendor codes that cannot be hashed *)

(** X15.  When the body is an object whose [error_code] is an array or an
    object, [error_codes.get] raises [TypeError] (the key is unhashable):
    the handler logs it as a handling failure and reports no message for
    the code. *)
Theorem unhashable_code_logged :
  ∀ (r : Response) (w : World) (d table : gmap string pyval) (code : pyval),
    body r = Decodes (PDict d) ->
    d !! "error_code" = Some code ->
    (∃ l, code = PList l) ∨ (∃ o, code = PDict o) ->
    error_codes (self_ w) = PDict table ->
    ∃ e, exn_type e = TypeError
         ∧ RD_handler r w = (Ok r, logged w (status_records r ++ [handling_failure e])).
Proof.
  intros r w d table code Hb Hd Hcode Ht.
  assert (∃ e, exn_type e = TypeError
               ∧ py_get (PDict table) code (PStr "Unknown Error") = Raise e) as (e & He & Hg).
  { destruct Hcode as [[l ->]|[o ->]]; eexists; (split; [|reflexivity]); reflexivity. }
  exists e. split; [done|].
  apply (handler_code_unhashable r w _ code e Hb); simpl.
  - by rewrite Hd, bool_decide_eq_true_2.
  - by rewrite Hd.
  - by rewrite Ht.
Qed.

Lemma unhashable_code_logged_witness :
  let d : gmap string pyval := {[ "error_code" := PList [PInt 8] ]} in
  let table : gmap string pyval := {[ "8" := PStr "Bad token (expired, invalid)" ]} in
  let r := mkResponse 200 "OK" "" (Decodes (PDict d)) in
  body r = Decodes (PDict d)
  ∧ d !! "error_code" = Some (PList [PInt 8])
  ∧ ((∃ l, PList [PInt 8] = PList l) ∨ (∃ o, PList [PInt 8] = PDict o))
  ∧ error_codes (self_ bad_token_world) = PDict table
  ∧ ∃ e, exn_type e = TypeError
         ∧ RD_handler r bad_token_world =
             (Ok r, logged bad_token_world (status_records r ++ [handling_failure e])).
Proof.
  intros d table r.
  assert (d !! "error_code" = Some (PList [PInt 8])) as Hd by apply lookup_singleton_eq.
  assert ((∃ l, PList [PInt 8] = PList l) ∨ (∃ o, PList [PInt 8] = PDict o)) as Hc
    by (left; by exists [PInt 8]).
  split; [reflexivity|]. split; [exact Hd|]. split; [exact Hc|]. split; [reflexivity|].
  exact (unhashable_code_logged r bad_token_world d table _ eq_refl Hd Hc eq_refl).
Defined.
